(** * The to-do page component: synchronisation with the REST store and the
      Adding / Editing input mode

    A shallow embedding of [src/todo-frontend/src/app/To-do/page.tsx]: the
    five [useState] cells of the component, its event handlers
    ([fetchTodos], [addTodo], [toggleTodoCompleted], [deleteTodo],
    [startEditing], [updateTodo], the "Cancel Edit" button, the input's
    [onChange] and the form's [onSubmit]), the requests they hand to [fetch]
    and what they do with the response.  Rendering and styling are left
    out. *)

From Stdlib Require Import Ascii NArith ZArith Lia.
From stdpp Require Import base option list strings pretty.

Set Warnings "-register-all".

(** ** Exceptions inside a [try] block

    Everything the handlers throw or have thrown at them is an [Error]
    object ([new Error], the SyntaxError of [response.json()], the TypeError
    of a property read on [null], the TypeError of a rejected [fetch]), so a
    [catch] clause always takes [err.message]. *)

Inductive Completion (A : Type) : Type :=
| Normal (a : A)
| Throw (message : string).
Arguments Normal {A} a.
Arguments Throw {A} message.

#[global] Instance Completion_ret : MRet Completion := @Normal.

#[global] Instance Completion_bind : MBind Completion :=
  λ A B (k : A → Completion B) (c : Completion A),
    match c with
    | Normal a => k a
    | Throw m => Throw m
    end.

(** ** JavaScript values used by the component *)

Module JS.

(** A value produced by [response.json()].  Objects are the list of their
    own properties.  [JNum] stands for an integral number in the safe range
    (below 2^53 in magnitude), where JavaScript prints plain decimal. *)
Inductive json : Type :=
| JNull
| JBool (b : bool)
| JNum (n : Z)
| JStr (s : string)
| JArr (items : list json)
| JObj (props : list (string * json)).

(** [o[key]] on an object's own properties; [None] is [undefined]. *)
Fixpoint own_property (key : string) (props : list (string * json))
  : option json :=
  match props with
  | [] => None
  | (k, v) :: rest =>
      if bool_decide (k = key) then Some v else own_property key rest
  end.

(** ToBoolean. *)
Definition truthy (v : json) : bool :=
  match v with
  | JNull => false
  | JBool b => b
  | JNum n => negb (n =? 0)%Z
  | JStr s => negb (bool_decide (s = ""))
  | JArr _ | JObj _ => true
  end.

(** The message of the TypeError for an object that has no primitive
    value (V8's wording). *)
Definition no_primitive : string :=
  "Cannot convert object to primitive value".

(** ToString, as [new Error(v)] applies it to its argument.  An array is
    joined with commas, [null] elements printing as nothing.  An object
    prints through [Object.prototype.toString], unless an own property
    [toString] (never callable in parsed JSON) hides it: then the
    conversion throws. *)
Fixpoint toString (v : json) : Completion string :=
  match v with
  | JNull => Normal "null"
  | JBool true => Normal "true"
  | JBool false => Normal "false"
  | JNum n => Normal (pretty n)
  | JStr s => Normal s
  | JArr items =>
      (fix join (l : list json) : Completion string :=
         match l with
         | [] => Normal ""
         | x :: rest =>
             here ← match x with JNull => Normal "" | _ => toString x end;
             match rest with
             | [] => Normal here
             | _ :: _ => tail ← join rest; Normal (here +:+ "," +:+ tail)
             end
         end) items
  | JObj props =>
      match own_property "toString" props with
      | Some _ => Throw no_primitive
      | None => Normal "[object Object]"
      end
  end.

(** The argument of [JSON.stringify]: data, or a function. *)
Inductive value : Type :=
| Data (j : json)
| Closure.

(** [JSON.stringify(v)].  The text is represented by the JSON value it
    denotes; a function has no JSON text and the result is [undefined]. *)
Definition JSON_stringify (v : value) : option json :=
  match v with
  | Data j => Some j
  | Closure => None
  end.

(** *** [String.prototype.trim]

    Strings are UTF-8 byte sequences.  [trim] strips WhiteSpace and
    LineTerminator code points from both ends: TAB, LF, VT, FF, CR, SP,
    U+00A0, U+1680, U+2000..U+200A, U+2028, U+2029, U+202F, U+205F, U+3000
    and U+FEFF. *)
Definition ws1 (a : ascii) : bool :=
  let x := N_of_ascii a in
  ((9 <=? x) && (x <=? 13) || (x =? 32))%N.

Definition ws2 (a b : ascii) : bool :=
  ((N_of_ascii a =? 0xC2) && (N_of_ascii b =? 0xA0))%N.

Definition ws3 (a b c : ascii) : bool :=
  let x := N_of_ascii a in
  let y := N_of_ascii b in
  let z := N_of_ascii c in
  ((x =? 0xE1) && (y =? 0x9A) && (z =? 0x80)
   || (x =? 0xE2) && (y =? 0x80)
      && ((0x80 <=? z) && (z <=? 0x8A)
          || (z =? 0xA8) || (z =? 0xA9) || (z =? 0xAF))
   || (x =? 0xE2) && (y =? 0x81) && (z =? 0x9F)
   || (x =? 0xE3) && (y =? 0x80) && (z =? 0x80)
   || (x =? 0xEF) && (y =? 0xBB) && (z =? 0xBF))%N.

(** Strip white space from the front.  With [back] set the string is read
    in reverse, so the bytes of a code point arrive last byte first. *)
Fixpoint strip (back : bool) (s : string) : string :=
  match s with
  | String a s1 =>
      if ws1 a then strip back s1 else
      match s1 with
      | String b s2 =>
          if (if back then ws2 b a else ws2 a b) then strip back s2 else
          match s2 with
          | String c s3 =>
              if (if back then ws3 c b a else ws3 a b c)
              then strip back s3 else s
          | EmptyString => s
          end
      | EmptyString => s
      end
  | EmptyString => s
  end.

Definition trim (s : string) : string :=
  String.rev (strip true (String.rev (strip false s))).

End JS.
Import JS.

(** ** The data model *)

(** [interface Todo]. *)
Record Todo : Type := mkTodo {
  id : string;
  title : string;
  completed : bool
}.

(** The object a [Todo] is, as JSON. *)
Definition json_of_Todo (t : Todo) : json :=
  JObj [("id", JStr (id t)); ("title", JStr (title t));
        ("completed", JBool (completed t))].

(** The annotation [: Todo] on a parsed body.  TypeScript does not check it
    at run time; a value that has the three properties with their declared
    types is read as the record (properties beyond the interface are not
    represented), any other value is outside [Todo]. *)
Definition as_Todo (j : json) : option Todo :=
  match j with
  | JObj props =>
      match own_property "id" props, own_property "title" props,
            own_property "completed" props with
      | Some (JStr i), Some (JStr t), Some (JBool c) => Some (mkTodo i t c)
      | _, _, _ => None
      end
  | _ => None
  end.

(** The annotation [: Todo[]]. *)
Definition as_Todos (j : json) : option (list Todo) :=
  match j with
  | JArr items => mapM as_Todo items
  | _ => None
  end.


(** ** [fetch]: requests, responses and how a call settles *)

Module Fetch.

(** The [RequestInit] dictionary, as the source writes it. *)
Record RequestInit : Type := mkInit {
  method : string;
  headers : list (string * string);
  body : option json
}.

(** [fetch(url)] without a dictionary. *)
Definition default_init : RequestInit := mkInit "GET" [] None.

Record Request : Type := mkRequest {
  url : string;
  init : RequestInit
}.

Definition upper (a : ascii) : ascii :=
  let x := N_of_ascii a in
  if ((97 <=? x) && (x <=? 122))%N then ascii_of_N (x - 32) else a.

Fixpoint uppercase (s : string) : string :=
  match s with
  | EmptyString => EmptyString
  | String a rest => String (upper a) (uppercase rest)
  end.

(** The method [fetch] puts on the wire: a name that matches DELETE, GET,
    HEAD, OPTIONS, POST or PUT without regard to case is upper-cased. *)
Definition normalize (m : string) : string :=
  let u := uppercase m in
  if bool_decide (u ∈ ["DELETE"; "GET"; "HEAD"; "OPTIONS"; "POST"; "PUT"])
  then u else m.

Definition issued_method (q : Request) : string := normalize (method (init q)).

(** What [response.json()] finds: text that is not JSON (the promise
    rejects with a SyntaxError of that message), or a value. *)
Inductive Text : Type :=
| NotJson (syntaxError : string)
| Json (j : json).

Record Response : Type := mkResponse {
  status : N;
  text : Text
}.

(** [response.ok]. *)
Definition ok (r : Response) : bool :=
  ((200 <=? status r) && (status r <=? 299))%N.

(** The promise [fetch] returns rejects (a TypeError with a message, the
    network failed) or resolves with a response. *)
Inductive Settlement : Type :=
| Rejected (message : string)
| Resolved (r : Response).

End Fetch.
Import Fetch.

(** ** What the handlers do with a settled call *)

(** [await fetch(...)]. *)
Definition await (x : Settlement) : Completion Response :=
  match x with
  | Rejected m => Throw m
  | Resolved r => Normal r
  end.

(** [await response.json()]. *)
Definition response_json (r : Response) : Completion json :=
  match text r with
  | NotJson m => Throw m
  | Json j => Normal j
  end.

(** The message of the TypeError for [null.message] (V8's wording). *)
Definition null_read : string :=
  "Cannot read properties of null (reading 'message')".

(** [errorData.message]; [None] is [undefined]. *)
Definition message_of (errorData : json) : Completion (option json) :=
  match errorData with
  | JNull => Throw null_read
  | JObj props => Normal (own_property "message" props)
  | _ => Normal None
  end.

(** [a || b]. *)
Definition or_else (a : option json) (b : json) : json :=
  match a with
  | Some v => if truthy v then v else b
  | None => b
  end.

(** [`HTTP error! status: ${response.status}`]. *)
Definition http_error (r : Response) : string :=
  "HTTP error! status: " +:+ pretty (status r).

(** The body every handler runs under [if (!response.ok)]:
    [const errorData = await response.json();
     throw new Error(errorData.message || `HTTP error! status: ...`)]. *)
Definition throw_error_of {A} (r : Response) : Completion A :=
  errorData ← response_json r;
  message ← message_of errorData;
  text ← toString (or_else message (JStr (http_error r)));
  Throw text.

(** ** The component's state: the five [useState] cells *)

Record State : Type := mkState {
  todos : list Todo;
  newTodoTitle : string;
  editingTodo : option Todo;
  loading : bool;
  error : option string
}.

(** The first render. *)
Definition initial : State := mkState [] "" None true None.

Definition setTodos (v : list Todo) (s : State) : State :=
  mkState v (newTodoTitle s) (editingTodo s) (loading s) (error s).
Definition setNewTodoTitle (v : string) (s : State) : State :=
  mkState (todos s) v (editingTodo s) (loading s) (error s).
Definition setEditingTodo (v : option Todo) (s : State) : State :=
  mkState (todos s) (newTodoTitle s) v (loading s) (error s).
Definition setLoading (v : bool) (s : State) : State :=
  mkState (todos s) (newTodoTitle s) (editingTodo s) v (error s).
Definition setError (v : option string) (s : State) : State :=
  mkState (todos s) (newTodoTitle s) (editingTodo s) (loading s) v.

(** ** The handlers

    A handler is a closure of one render: it reads [todos], [newTodoTitle]
    and [editingTodo] of that render, and every [setX] writes the cell as it
    is when the call is made.  An async handler runs up to its
    [await fetch(...)], leaving a request and the rest of its body; the rest
    resumes when the call settles, on the state as it is by then.

    A body whose JSON is outside the type the source annotates it with
    ([Todo], [Todo[]]) would put a value in [todos] that is no list of
    [Todo]; [resume] answers [None] there. *)

Record Pending : Type := mkPending {
  request : Request;
  resume : Settlement → State → option State
}.

Definition API_BASE_URL : string := "http://localhost:5000/api/todos".

Definition json_headers : list (string * string) :=
  [("Content-Type", "application/json")].

(** [try { ... }] of [fetchTodos]. *)
Definition fetchTodos_try (x : Settlement) : Completion json :=
  response ← await x;
  if negb (ok response) then throw_error_of response
  else response_json response.

Definition fetchTodos (s : State) : State * option Pending :=
  (setError None (setLoading true s),
   Some {|
     request := mkRequest API_BASE_URL default_init;
     resume := λ x now,
       setLoading false <$>
         match fetchTodos_try x with
         | Normal data => (λ l, setTodos l now) <$> as_Todos data
         | Throw errorMessage =>
             Some (setError (Some ("Failed to load todos: " +:+ errorMessage)) now)
         end
   |}).

(** [try { ... }] of [addTodo]. *)
Definition addTodo_try (x : Settlement) : Completion json :=
  response ← await x;
  if negb (ok response) then throw_error_of response
  else response_json response.

Definition addTodo (s : State) : State * option Pending :=
  if bool_decide (trim (newTodoTitle s) = "") then
    (setError (Some "Todo title can't be empty.") s, None)
  else
    (setError None s,
     Some {|
       request := mkRequest API_BASE_URL
         (mkInit "POST" json_headers
            (JSON_stringify (Data (JObj [("title", JStr (newTodoTitle s))]))));
       resume := λ x now,
         match addTodo_try x with
         | Normal data =>
             (λ addedTodo,
                setNewTodoTitle "" (setTodos (todos s ++ [addedTodo]) now))
               <$> as_Todo data
         | Throw errorMessage =>
             Some (setError (Some ("Failed to add todo: " +:+ errorMessage)) now)
         end
     |}).

(** [{ ...todoToToggle, completed: !todoToToggle.completed }]. *)
Definition toggled (todoToToggle : Todo) : Todo :=
  mkTodo (id todoToToggle) (title todoToToggle) (negb (completed todoToToggle)).

(** [todos.map(t => (t.id === target.id ? updatedTodo : t))]. *)
Definition replaceById (target : string) (updatedTodo : Todo) (l : list Todo)
  : list Todo :=
  (λ t, if bool_decide (id t = target) then updatedTodo else t) <$> l.

(** [todos.filter(t => t.id !== id)]. *)
Definition removeById (target : string) (l : list Todo) : list Todo :=
  filter (λ t, id t ≠ target) l.

(** The part of the [try] blocks of [toggleTodoCompleted] and [updateTodo]
    after the call: the body of a successful response is not read. *)
Definition put_try (x : Settlement) : Completion unit :=
  response ← await x;
  if negb (ok response) then throw_error_of response
  else mret ().

Definition toggleTodoCompleted (todoToToggle : Todo) (s : State)
  : State * option Pending :=
  let updatedTodo := toggled todoToToggle in
  (setError None s,
   Some {|
     request := mkRequest (API_BASE_URL +:+ "/" +:+ id todoToToggle)
       (mkInit "PUT" json_headers
          (JSON_stringify (Data (json_of_Todo updatedTodo))));
     resume := λ x now,
       Some match put_try x with
            | Normal _ =>
                setTodos (replaceById (id todoToToggle) updatedTodo (todos s)) now
            | Throw errorMessage =>
                setError (Some ("Failed to update todo: " +:+ errorMessage)) now
            end
   |}).

(** [try { ... }] of [deleteTodo]: under [!response.ok] the status is tested
    against 204 once more before the error body is read. *)
Definition deleteTodo_try (x : Settlement) : Completion unit :=
  response ← await x;
  if negb (ok response) then
    if negb (bool_decide (status response = 204%N))
    then throw_error_of response
    else mret ()
  else mret ().

Definition deleteTodo (target : string) (s : State) : State * option Pending :=
  (setError None s,
   Some {|
     request := mkRequest (API_BASE_URL +:+ "/" +:+ target)
       (mkInit "DELETE" [] None);
     resume := λ x now,
       Some match deleteTodo_try x with
            | Normal _ => setTodos (removeById target (todos s)) now
            | Throw errorMessage =>
                setError (Some ("Failed to delete todo: " +:+ errorMessage)) now
            end
   |}).

Definition startEditing (todoToEdit : Todo) (s : State) : State :=
  setError None (setNewTodoTitle (title todoToEdit) (setEditingTodo (Some todoToEdit) s)).

(** [{ ...editingTodo, title: newTodoTitle.trim() }]. *)
Definition retitled (editing : Todo) (draft : string) : Todo :=
  mkTodo (id editing) (trim draft) (completed editing).

(** [updateTodo].  The method is written ['Put'], and the value handed to
    [JSON.stringify] is [updateTodo], this very function, not the object
    [updatedTodo] built one statement earlier. *)
Definition updateTodo (s : State) : State * option Pending :=
  match editingTodo s with
  | Some editing =>
      if bool_decide (trim (newTodoTitle s) = "") then
        (setError (Some "Can't update with empty title or no todo selected.") s,
         None)
      else
        let updatedTodo := retitled editing (newTodoTitle s) in
        (setError None s,
         Some {|
           request := mkRequest (API_BASE_URL +:+ "/" +:+ id editing)
             (mkInit "Put" json_headers (JSON_stringify Closure));
           resume := λ x now,
             Some match put_try x with
                  | Normal _ =>
                      setNewTodoTitle ""
                        (setEditingTodo None
                           (setTodos (replaceById (id editing) updatedTodo (todos s))
                              now))
                  | Throw errorMessage =>
                      setError (Some ("Failed to update todo: " +:+ errorMessage)) now
                  end
         |})
  | None =>
      (setError (Some "Can't update with empty title or no todo selected.") s,
       None)
  end.

(** [onSubmit={editingTodo ? updateTodo : addTodo}]. *)
Definition onSubmit (s : State) : State * option Pending :=
  match editingTodo s with
  | Some _ => updateTodo s
  | None => addTodo s
  end.

(** The "Cancel Edit" button:
    [() => { setEditingTodo(null); setNewTodoTitle(''); }]. *)
Definition cancelEdit (s : State) : State :=
  setNewTodoTitle "" (setEditingTodo None s).

(** The input's [onChange]: [setNewTodoTitle(e.target.value)]. *)
Definition onChange (value : string) (s : State) : State :=
  setNewTodoTitle value s.

(** ** Operations

    The user's actions and the load on mount.  An operation run on its own: the handler is called on the state [s] and
    its call, if it makes one, settles as [x] with nothing in between. *)

Definition run (h : State → State * option Pending) (x : Settlement) (s : State)
  : option State :=
  match h s with
  | (s1, Some p) => resume p x s1
  | (s1, None) => Some s1
  end.

(** The request a handler issues from [s], if any. *)
Definition issued (h : State → State * option Pending) (s : State)
  : option Request :=
  request <$> (h s).2.

Inductive Operation : Type :=
| FetchAll
| Submit
| Toggle (item : Todo)
| Remove (target : string)
| StartEdit (todo : Todo)
| CancelEdit
| Change (value : string).

Definition handler (op : Operation) (s : State) : State * option Pending :=
  match op with
  | FetchAll => fetchTodos s
  | Submit => onSubmit s
  | Toggle item => toggleTodoCompleted item s
  | Remove target => deleteTodo target s
  | StartEdit todo => (startEditing todo s, None)
  | CancelEdit => (cancelEdit s, None)
  | Change value => (onChange value s, None)
  end.

Definition perform (op : Operation) : Settlement → State → option State :=
  run (handler op).

(** ** Sample data: the scenarios of the specification *)

Definition milk : Todo := mkTodo "1" "buy milk" false.
Definition eggs : Todo := mkTodo "2" "buy eggs" true.

(** A loaded page showing two items, nothing typed. *)
Definition shown : State := mkState [milk; eggs] "" None false None.

Definition reply (code : N) (j : json) : Settlement :=
  Resolved (mkResponse code (Json j)).

(** A reply whose body is empty, as a 204 has it. *)
Definition reply_empty (code : N) : Settlement :=
  Resolved (mkResponse code (NotJson "Unexpected end of JSON input")).

(** The state reached from [shown] by choosing to edit "buy milk" and
    submitting, when the server answers 500 with [{message: "db down"}]. *)
Definition update_refused : State :=
  mkState [milk; eggs] "buy milk" (Some milk) false
    (Some "Failed to update todo: db down").

(** A collection in which the server repeated the id "1". *)
Definition doubled : State :=
  mkState [milk; eggs; mkTodo "1" "buy bread" true] "" None false None.

(** ** Vocabulary for the failure properties *)

(** Operations that call the server. *)
Definition remote (op : Operation) : bool :=
  match op with
  | FetchAll | Submit | Toggle _ | Remove _ => true
  | StartEdit _ | CancelEdit | Change _ => false
  end.

(** The operations that read the body of a successful response: loading,
    and submitting in Adding mode. *)
Definition reads_body (op : Operation) (s : State) : bool :=
  match op with
  | FetchAll => true
  | Submit => bool_decide (editingTodo s = None)
  | _ => false
  end.

(** A failing settlement: the call was rejected, the status is not a
    success, or the operation reads the body and the body is not JSON. *)
Definition failing (op : Operation) (s : State) (x : Settlement) : bool :=
  match x with
  | Rejected _ => true
  | Resolved r =>
      negb (ok r)
      || reads_body op s && match text r with NotJson _ => true | Json _ => false end
  end.

(** What each [catch] clause puts before the message. *)
Definition failure_prefix (op : Operation) (s : State) : string :=
  match op with
  | FetchAll => "Failed to load todos: "
  | Submit =>
      match editingTodo s with
      | Some _ => "Failed to update todo: "
      | None => "Failed to add todo: "
      end
  | Toggle _ => "Failed to update todo: "
  | Remove _ => "Failed to delete todo: "
  | StartEdit _ | CancelEdit | Change _ => ""
  end.

(** ** What the page shows

    The conditional parts of the JSX the component returns: the input's
    placeholder, the submit button's label, the "Cancel Edit" button, the
    error alert, the loading note, the "No todos yet!" note and the list.
    Class names and icons are left out. *)

Record View : Type := mkView {
  placeholder : string;
  submitLabel : string;
  cancelButton : bool;
  errorAlert : option string;
  loadingNote : bool;
  emptyNote : bool;
  rows : option (list Todo)
}.

(** ToBoolean of [error : string | null]. *)
Definition shows_error (e : option string) : bool :=
  match e with
  | Some m => negb (bool_decide (m = ""))
  | None => false
  end.

Definition render (s : State) : View :=
  {|
    placeholder :=
      match editingTodo s with
      | Some _ => "Edit todo title..."
      | None => "Add a new todo..."
      end;
    submitLabel :=
      match editingTodo s with
      | Some _ => "Update Todo"
      | None => "Add Todo"
      end;
    cancelButton :=
      match editingTodo s with
      | Some _ => true
      | None => false
      end;
    errorAlert := if shows_error (error s) then error s else None;
    loadingNote := loading s;
    emptyNote :=
      negb (loading s) && (length (todos s) =? 0) && negb (shows_error (error s));
    rows :=
      if negb (loading s) && (0 <? length (todos s)) then Some (todos s)
      else None
  |}.

(** ** Sessions

    Operations one after the other, each settled before the next starts. *)

Fixpoint session (steps : list (Operation * Settlement)) (s : State)
  : option State :=
  match steps with
  | [] => Some s
  | (op, x) :: rest => s' ← perform op x s; session rest s'
  end.

(** * Properties *)

(** ** General facts about the embedding *)

Section Basics.

Lemma append_nonempty (a : ascii) (p m : string) : String a p +:+ m ≠ "".
Proof. discriminate. Qed.

(** Decoding what [json_of_Todo] encodes. *)
Lemma as_Todo_json (t : Todo) : as_Todo (json_of_Todo t) = Some t.
Proof. by destruct t. Qed.

Lemma as_Todos_json (l : list Todo) :
  as_Todos (JArr (json_of_Todo <$> l)) = Some l.
Proof.
  apply mapM_Some_2. induction l as [|t l IH]; constructor; auto using as_Todo_json.
Qed.

(** A 204 is a success status, so the inner test of [deleteTodo] never
    spares a response that is not [ok]. *)
Lemma not_ok_not_204 (r : Response) : ok r = false → status r ≠ 204%N.
Proof. unfold ok. intros H E. rewrite E in H. discriminate. Qed.

(** The error branch always throws. *)
Lemma throw_error_of_throws {A} (r : Response) :
  ∃ m, @throw_error_of A r = Throw m.
Proof.
  unfold throw_error_of, response_json.
  destruct (text r) as [e|j]; simpl; [by eauto|].
  destruct (message_of j) as [o|e]; simpl; [|by eauto].
  destruct (toString _); simpl; eauto.
Qed.

Lemma fetchTodos_try_not_ok (r : Response) :
  ok r = false → fetchTodos_try (Resolved r) = throw_error_of r.
Proof. intros H. unfold fetchTodos_try. simpl. by rewrite H. Qed.

Lemma addTodo_try_not_ok (r : Response) :
  ok r = false → addTodo_try (Resolved r) = throw_error_of r.
Proof. apply fetchTodos_try_not_ok. Qed.

Lemma put_try_not_ok (r : Response) :
  ok r = false → put_try (Resolved r) = throw_error_of r.
Proof. intros H. unfold put_try. simpl. by rewrite H. Qed.

Lemma deleteTodo_try_not_ok (r : Response) :
  ok r = false → deleteTodo_try (Resolved r) = throw_error_of r.
Proof.
  intros H. unfold deleteTodo_try. simpl. rewrite H. simpl.
  by rewrite bool_decide_eq_false_2 by by apply not_ok_not_204.
Qed.

(** A body that is not JSON makes [fetchTodos] and [addTodo] throw whatever
    the status. *)
Lemma fetchTodos_try_not_json (r : Response) (e : string) :
  text r = NotJson e → fetchTodos_try (Resolved r) = Throw e.
Proof.
  intros H. unfold fetchTodos_try, throw_error_of, response_json. simpl.
  rewrite H. by destruct (ok r).
Qed.

(** The error body's [message], when it is a string that is not empty, is
    the message thrown. *)
Lemma throw_error_of_message {A} (r : Response) props (m : string) :
  text r = Json (JObj props) →
  own_property "message" props = Some (JStr m) →
  m ≠ "" →
  @throw_error_of A r = Throw m.
Proof.
  intros Ht Hp Hm. unfold throw_error_of, response_json. rewrite Ht. simpl.
  rewrite Hp. simpl. by rewrite (bool_decide_eq_false_2 _ Hm).
Qed.

(** Without a [message], or with the empty string for one, the status-coded
    message is thrown. *)
Lemma throw_error_of_fallback {A} (r : Response) props :
  text r = Json (JObj props) →
  own_property "message" props = None
  ∨ own_property "message" props = Some (JStr "") →
  @throw_error_of A r = Throw (http_error r).
Proof.
  intros Ht Hp. unfold throw_error_of, response_json. rewrite Ht. simpl.
  by destruct Hp as [-> | ->].
Qed.

Lemma put_try_ok (r : Response) : ok r = true → put_try (Resolved r) = Normal ().
Proof. intros H. unfold put_try. simpl. by rewrite H. Qed.

Lemma deleteTodo_try_ok (r : Response) :
  ok r = true → deleteTodo_try (Resolved r) = Normal ().
Proof. intros H. unfold deleteTodo_try. simpl. by rewrite H. Qed.

End Basics.

(** ** Loading and creating *)

(** C6: when [fetchTodos] gets a success status and a body that is an array
    whose items read as the Todos [l], one for one and in that order, the
    collection becomes exactly [l], [loading] becomes [false] and [error] is
    [null]. *)
Theorem fetchAll_success (s : State) (r : Response) (items : list json)
    (l : list Todo) :
  ok r = true →
  text r = Json (JArr items) →
  Forall2 (λ item t, as_Todo item = Some t) items l →
  ∃ s', perform FetchAll (Resolved r) s = Some s'
        ∧ todos s' = l ∧ loading s' = false ∧ error s' = None.
Proof.
  intros Hok Htext Hitems.
  unfold perform, run. simpl. unfold fetchTodos_try, response_json. simpl.
  rewrite Hok, Htext. simpl.
  rewrite (mapM_Some_2 _ _ _ Hitems). simpl.
  eexists. split; [reflexivity|]. done.
Qed.

Lemma fetchAll_success_witness :
  ∃ s', perform FetchAll (reply 200 (JArr [json_of_Todo milk; json_of_Todo eggs])) initial
        = Some s'
        ∧ todos s' = [milk; eggs] ∧ loading s' = false ∧ error s' = None.
Proof.
  apply (fetchAll_success initial _ [json_of_Todo milk; json_of_Todo eggs]).
  - reflexivity.
  - reflexivity.
  - repeat constructor.
Defined.

(** C5: in Adding mode, with a draft that trims to the empty string, the
    submit handler issues no request, sets [error] to the validation message
    and leaves the collection and the draft as they were. *)
Theorem submit_adding_blank (s : State) :
  editingTodo s = None →
  trim (newTodoTitle s) = "" →
  ∃ s', handler Submit s = (s', None)
        ∧ issued (handler Submit) s = None
        ∧ error s' = Some "Todo title can't be empty."
        ∧ todos s' = todos s
        ∧ newTodoTitle s' = newTodoTitle s
        ∧ ∀ x, perform Submit x s = Some s'.
Proof.
  intros Hmode Hblank.
  unfold perform, run, issued. simpl. unfold onSubmit, addTodo.
  rewrite Hmode, Hblank. simpl.
  eexists. split; [reflexivity|]. done.
Qed.

Lemma submit_adding_blank_witness :
  ∃ s', handler Submit (onChange "   " shown) = (s', None)
        ∧ issued (handler Submit) (onChange "   " shown) = None
        ∧ error s' = Some "Todo title can't be empty."
        ∧ todos s' = [milk; eggs]
        ∧ newTodoTitle s' = "   "
        ∧ ∀ x, perform Submit x (onChange "   " shown) = Some s'.
Proof.
  apply (submit_adding_blank (onChange "   " shown)); reflexivity.
Defined.

(** C7: when a create gets a success status and a body that reads as the
    Todo [added], the collection becomes the one the handler started from
    with [added] appended: one longer, every earlier position as it was;
    and the draft becomes empty. *)
Theorem create_success (s : State) (r : Response) (j : json) (added : Todo) :
  editingTodo s = None →
  trim (newTodoTitle s) ≠ "" →
  ok r = true →
  text r = Json j →
  as_Todo j = Some added →
  ∃ s', perform Submit (Resolved r) s = Some s'
        ∧ todos s' = todos s ++ [added]
        ∧ length (todos s') = S (length (todos s))
        ∧ (∀ i, i < length (todos s) → todos s' !! i = todos s !! i)
        ∧ todos s' !! length (todos s) = Some added
        ∧ newTodoTitle s' = "".
Proof.
  intros Hmode Hdraft Hok Htext Hadded.
  unfold perform, run. simpl. unfold onSubmit, addTodo.
  rewrite Hmode, (bool_decide_eq_false_2 _ Hdraft). simpl.
  unfold addTodo_try, response_json. simpl. rewrite Hok, Htext. simpl.
  rewrite Hadded. simpl.
  eexists. split; [reflexivity|]. simpl.
  repeat split.
  - rewrite length_app. simpl. lia.
  - intros i Hi. by apply lookup_app_l.
  - by rewrite lookup_app_r, Nat.sub_diag.
Qed.

Lemma create_success_witness :
  ∃ s', perform Submit (reply 201 (json_of_Todo (mkTodo "3" "buy tea" false)))
          (onChange "buy tea" shown) = Some s'
        ∧ todos s' = [milk; eggs] ++ [mkTodo "3" "buy tea" false]
        ∧ length (todos s') = 3
        ∧ (∀ i, i < 2 → todos s' !! i = [milk; eggs] !! i)
        ∧ todos s' !! 2 = Some (mkTodo "3" "buy tea" false)
        ∧ newTodoTitle s' = "".
Proof.
  apply (create_success (onChange "buy tea" shown) _
           (json_of_Todo (mkTodo "3" "buy tea" false))).
  - reflexivity.
  - by vm_compute.
  - reflexivity.
  - reflexivity.
  - reflexivity.
Defined.

(** ** The input mode: editing, cancelling, updating *)

(** C1: what [updateTodo] hands to [fetch] when an item is being edited and
    the draft does not trim to nothing.  The call goes to the item's id and
    its method reaches the wire as PUT, but it carries no body at all:
    [JSON.stringify] was given the handler [updateTodo] instead of the object
    [updatedTodo], and a function has no JSON text.  The body is therefore
    not the serialized updated Todo the claim describes. *)
Theorem update_request (s : State) (editing : Todo) :
  editingTodo s = Some editing →
  trim (newTodoTitle s) ≠ "" →
  ∃ q, issued (handler Submit) s = Some q
       ∧ issued_method q = "PUT"
       ∧ url q = API_BASE_URL +:+ "/" +:+ id editing
       ∧ body (init q) = None
       ∧ body (init q)
         ≠ JSON_stringify
             (Data (json_of_Todo
                      (mkTodo (id editing) (trim (newTodoTitle s))
                         (completed editing)))).
Proof.
  intros Hmode Hdraft.
  unfold issued. simpl. unfold onSubmit, updateTodo.
  rewrite Hmode, (bool_decide_eq_false_2 _ Hdraft). simpl.
  eexists. split; [reflexivity|]. simpl. done.
Qed.

Lemma update_request_witness :
  ∃ q, issued (handler Submit) (onChange " buy oat milk " (startEditing milk shown))
       = Some q
       ∧ issued_method q = "PUT"
       ∧ url q = API_BASE_URL +:+ "/" +:+ "1"
       ∧ body (init q) = None
       ∧ body (init q)
         ≠ JSON_stringify
             (Data (json_of_Todo
                      (mkTodo "1" (trim " buy oat milk ") false))).
Proof.
  apply (update_request (onChange " buy oat milk " (startEditing milk shown)) milk).
  - reflexivity.
  - by vm_compute.
Defined.

(** The failing input of C2: [update_refused] is reached in Editing mode
    with an error showing, and "Cancel Edit" leaves that error where it is,
    now in Adding mode. *)
Lemma cancelEdit_keeps_error :
  perform Submit (reply 500 (JObj [("message", JStr "db down")]))
    (startEditing milk shown) = Some update_refused
  ∧ editingTodo update_refused = Some milk
  ∧ perform CancelEdit (reply 200 JNull) update_refused
    = Some (mkState [milk; eggs] "" None false
              (Some "Failed to update todo: db down"))
  ∧ error (cancelEdit update_refused) ≠ None.
Proof. by vm_compute. Qed.

(** C2: what "Cancel Edit" does from every state in Editing mode.  It
    returns to Adding mode, empties the draft and leaves the collection as
    it was, as the claim says; but it never calls [setError], so [error]
    stays what it was instead of being cleared.  [startEditing] and every
    other handler clear it; this one alone omits the call, and an alert left
    by a refused update keeps showing after the edit is cancelled. *)
Theorem cancelEdit_effect (s : State) (editing : Todo) (x : Settlement) :
  editingTodo s = Some editing →
  ∃ s', perform CancelEdit x s = Some s'
        ∧ editingTodo s' = None
        ∧ newTodoTitle s' = ""
        ∧ todos s' = todos s
        ∧ error s' = error s
        ∧ loading s' = loading s.
Proof. intros _. by eexists. Qed.

Lemma cancelEdit_effect_witness :
  ∃ s', perform CancelEdit (reply 200 JNull) update_refused = Some s'
        ∧ editingTodo s' = None
        ∧ newTodoTitle s' = ""
        ∧ todos s' = [milk; eggs]
        ∧ error s' = Some "Failed to update todo: db down"
        ∧ loading s' = false.
Proof. apply (cancelEdit_effect update_refused milk). reflexivity. Defined.

(** [startEditing] followed by "Cancel Edit": Adding mode, empty draft, the
    same collection. *)
Lemma startEditing_cancelEdit (todo : Todo) (s : State) :
  cancelEdit (startEditing todo s)
  = mkState (todos s) "" None (loading s) None.
Proof. reflexivity. Qed.

(** ** Replacing and removing by id *)

Section ById.

Context (target : string) (updatedTodo : Todo).

Lemma replaceById_length (l : list Todo) :
  length (replaceById target updatedTodo l) = length l.
Proof. apply length_fmap. Qed.

Lemma replaceById_hit (l : list Todo) (i : nat) (t : Todo) :
  l !! i = Some t → id t = target →
  replaceById target updatedTodo l !! i = Some updatedTodo.
Proof.
  intros Hi Hid. unfold replaceById. rewrite list_lookup_fmap, Hi. simpl.
  by rewrite bool_decide_eq_true_2.
Qed.

Lemma replaceById_miss (l : list Todo) (i : nat) (t : Todo) :
  l !! i = Some t → id t ≠ target →
  replaceById target updatedTodo l !! i = Some t.
Proof.
  intros Hi Hid. unfold replaceById. rewrite list_lookup_fmap, Hi. simpl.
  by rewrite bool_decide_eq_false_2.
Qed.

(** Whatever carries the target id afterwards is the replacement, provided
    the replacement keeps that id. *)
Lemma replaceById_elem (l : list Todo) (t : Todo) :
  t ∈ replaceById target updatedTodo l → id t = target → t = updatedTodo.
Proof.
  unfold replaceById. intros [u [-> Hu]]%list_elem_of_fmap Hid.
  case_bool_decide; [done|]. by destruct H.
Qed.

Lemma removeById_elem (l : list Todo) (t : Todo) :
  t ∈ removeById target l ↔ t ∈ l ∧ id t ≠ target.
Proof. unfold removeById. rewrite list_elem_of_filter. tauto. Qed.

Lemma removeById_sublist (l : list Todo) : removeById target l `sublist_of` l.
Proof. apply sublist_filter. Qed.

(** Nothing else is dropped: any selection from [l] that avoids the target
    id is still a selection from the result. *)
Lemma removeById_greatest (l k : list Todo) :
  k `sublist_of` l → Forall (λ t, id t ≠ target) k →
  k `sublist_of` removeById target l.
Proof.
  unfold removeById. intros Hsub. induction Hsub as [|t k l _ IH|t k l _ IH].
  - constructor.
  - intros [Ht Hk]%Forall_cons. rewrite filter_cons_True by done.
    constructor. auto.
  - intros Hk. rewrite filter_cons. case_decide; [constructor|]; auto.
Qed.

End ById.

(** C8: toggling an item [X] of the collection sends a PUT to [X]'s id whose
    body is [X] with [completed] inverted; when the response is a success,
    every position that held [X]'s id holds that payload afterwards (there
    is one, and nothing else carries the id), and every other position holds
    what it held. *)
Theorem toggle_success (s : State) (X : Todo) (r : Response) :
  X ∈ todos s →
  ok r = true →
  let payload := mkTodo (id X) (title X) (negb (completed X)) in
  ∃ q s',
    issued (handler (Toggle X)) s = Some q
    ∧ issued_method q = "PUT"
    ∧ url q = API_BASE_URL +:+ "/" +:+ id X
    ∧ body (init q) = Some (json_of_Todo payload)
    ∧ perform (Toggle X) (Resolved r) s = Some s'
    ∧ length (todos s') = length (todos s)
    ∧ (∀ i t, todos s !! i = Some t → id t = id X → todos s' !! i = Some payload)
    ∧ (∀ i t, todos s !! i = Some t → id t ≠ id X → todos s' !! i = Some t)
    ∧ (∃ i, todos s !! i = Some X ∧ todos s' !! i = Some payload)
    ∧ (∀ t, t ∈ todos s' → id t = id X → t = payload)
    ∧ error s' = None.
Proof.
  intros HX Hok payload.
  unfold perform, run, issued. simpl. rewrite (put_try_ok r Hok).
  do 2 eexists. do 4 (split; [reflexivity|]). split; [reflexivity|]. simpl.
  repeat split.
  - apply replaceById_length.
  - intros i t. apply replaceById_hit.
  - intros i t. apply replaceById_miss.
  - apply list_elem_of_lookup in HX as [i Hi]. exists i. split; [done|].
    by apply (replaceById_hit _ _ _ _ X).
  - intros t. apply replaceById_elem.
Qed.

Lemma toggle_success_witness :
  ∃ q s',
    issued (handler (Toggle milk)) shown = Some q
    ∧ issued_method q = "PUT"
    ∧ url q = API_BASE_URL +:+ "/" +:+ "1"
    ∧ body (init q) = Some (json_of_Todo (mkTodo "1" "buy milk" true))
    ∧ perform (Toggle milk) (reply 200 (json_of_Todo (mkTodo "1" "buy milk" true)))
        shown = Some s'
    ∧ length (todos s') = 2
    ∧ (∀ i t, [milk; eggs] !! i = Some t → id t = "1"
              → todos s' !! i = Some (mkTodo "1" "buy milk" true))
    ∧ (∀ i t, [milk; eggs] !! i = Some t → id t ≠ "1" → todos s' !! i = Some t)
    ∧ (∃ i, [milk; eggs] !! i = Some milk
            ∧ todos s' !! i = Some (mkTodo "1" "buy milk" true))
    ∧ (∀ t, t ∈ todos s' → id t = "1" → t = mkTodo "1" "buy milk" true)
    ∧ error s' = None.
Proof.
  apply (toggle_success shown milk).
  - apply list_elem_of_here.
  - reflexivity.
Defined.

(** C10: the per-id operations act on every occurrence of the id.  After a
    successful toggle of [item], and after a successful update of the item
    under edit, the collection has the length it had and position by
    position holds the replacement where the id matched and the old element
    elsewhere.  After a successful remove the collection is the greatest
    selection, in order, of the old one that avoids the target id: no
    element with that id is left and no other is lost. *)
Theorem by_id_all_occurrences (s : State) (r : Response) :
  ok r = true →
  (∀ item, ∃ s',
      perform (Toggle item) (Resolved r) s = Some s'
      ∧ length (todos s') = length (todos s)
      ∧ ∀ i t, todos s !! i = Some t →
          todos s' !! i
          = Some (if bool_decide (id t = id item)
                  then mkTodo (id item) (title item) (negb (completed item))
                  else t))
  ∧ (∀ editing, editingTodo s = Some editing → trim (newTodoTitle s) ≠ "" →
      ∃ s',
        perform Submit (Resolved r) s = Some s'
        ∧ length (todos s') = length (todos s)
        ∧ ∀ i t, todos s !! i = Some t →
            todos s' !! i
            = Some (if bool_decide (id t = id editing)
                    then mkTodo (id editing) (trim (newTodoTitle s))
                           (completed editing)
                    else t))
  ∧ (∀ target, ∃ s',
      perform (Remove target) (Resolved r) s = Some s'
      ∧ (∀ t, t ∈ todos s' ↔ t ∈ todos s ∧ id t ≠ target)
      ∧ todos s' `sublist_of` todos s
      ∧ ∀ k, k `sublist_of` todos s → Forall (λ t, id t ≠ target) k →
             k `sublist_of` todos s').
Proof.
  intros Hok. split; [|split].
  - intros item. unfold perform, run. simpl. rewrite (put_try_ok r Hok).
    eexists. split; [reflexivity|]. simpl. split; [apply replaceById_length|].
    intros i t Hi. unfold replaceById. by rewrite list_lookup_fmap, Hi.
  - intros editing Hmode Hdraft. unfold perform, run. simpl.
    unfold onSubmit, updateTodo.
    rewrite Hmode, (bool_decide_eq_false_2 _ Hdraft). simpl.
    rewrite (put_try_ok r Hok).
    eexists. split; [reflexivity|]. simpl. split; [apply replaceById_length|].
    intros i t Hi. unfold replaceById. by rewrite list_lookup_fmap, Hi.
  - intros target. unfold perform, run. simpl. rewrite (deleteTodo_try_ok r Hok).
    eexists. split; [reflexivity|]. simpl.
    split; [apply removeById_elem|].
    split; [apply removeById_sublist|apply removeById_greatest].
Qed.

Lemma by_id_all_occurrences_witness :
  perform (Toggle milk) (reply 200 JNull) doubled
  = Some (mkState [mkTodo "1" "buy milk" true; eggs; mkTodo "1" "buy milk" true]
            "" None false None)
  ∧ perform (Remove "1") (reply_empty 204) doubled
    = Some (mkState [eggs] "" None false None)
  ∧ (∃ s', perform (Remove "1") (reply_empty 204) doubled = Some s'
           ∧ (∀ t, t ∈ todos s' ↔ t ∈ todos doubled ∧ id t ≠ "1")
           ∧ todos s' `sublist_of` todos doubled
           ∧ ∀ k, k `sublist_of` todos doubled → Forall (λ t, id t ≠ "1") k →
                  k `sublist_of` todos s')
  ∧ (∃ s', perform Submit (reply_empty 204)
             (onChange " buy oat milk " (startEditing milk doubled)) = Some s'
           ∧ length (todos s') = 3
           ∧ ∀ i t, todos doubled !! i = Some t →
               todos s' !! i
               = Some (if bool_decide (id t = "1")
                       then mkTodo "1" (trim " buy oat milk ") false
                       else t)).
Proof.
  split; [reflexivity|]. split; [reflexivity|]. split.
  - apply (proj2 (proj2 (by_id_all_occurrences doubled
                           (mkResponse 204 (NotJson "Unexpected end of JSON input"))
                           eq_refl))).
  - apply (proj1 (proj2 (by_id_all_occurrences
                           (onChange " buy oat milk " (startEditing milk doubled))
                           (mkResponse 204 (NotJson "Unexpected end of JSON input"))
                           eq_refl)) milk).
    + reflexivity.
    + by vm_compute.
Defined.

(** Unfold one operation down to its [try] block. *)
Ltac open_op :=
  unfold perform, run, issued; simpl;
  unfold onSubmit, updateTodo, addTodo; simpl.

(** Close a goal asking for a result state with the old collection and a
    message in [error]. *)
Ltac reported :=
  do 2 eexists; split; [reflexivity|]; split; [reflexivity|];
  split; [reflexivity|]; first [apply append_nonempty | discriminate].

(** The resumed part of a toggle or a remove writes neither the draft nor
    the item under edit, whatever happened to them while the call was in
    flight. *)
Lemma frame_on_resume (op : Operation) (s now : State) (p : Pending)
    (x : Settlement) :
  (∃ item, op = Toggle item) ∨ (∃ target, op = Remove target) →
  (handler op s).2 = Some p →
  ∃ s', resume p x now = Some s'
        ∧ newTodoTitle s' = newTodoTitle now
        ∧ editingTodo s' = editingTodo now.
Proof.
  intros [[item ->] | [target ->]]; simpl; intros [= <-]; simpl.
  - eexists. split; [reflexivity|]. by destruct (put_try x).
  - eexists. split; [reflexivity|]. by destruct (deleteTodo_try x).
Qed.

(** C9, as stated, fails in its last clause: typing into the input writes
    the draft, and it is none of a submit, [startEditing] or "Cancel Edit". *)
Lemma typing_changes_draft :
  perform (Change "buy tea") (reply 200 JNull) shown
  = Some (mkState [milk; eggs] "buy tea" None false None)
  ∧ newTodoTitle (onChange "buy tea" shown) ≠ newTodoTitle shown
  ∧ ¬ (Change "buy tea" = Submit
       ∨ (∃ todo, Change "buy tea" = StartEdit todo)
       ∨ Change "buy tea" = CancelEdit).
Proof.
  split; [reflexivity|]. split; [by vm_compute|].
  intros [H | [[todo H] | H]]; discriminate H.
Qed.

(** C9, amended: a toggle and a remove, however the call settles, leave the
    draft and the item under edit (hence the mode) as they were; only a
    submit, [startEditing], "Cancel Edit" and typing into the input change
    either, and typing changes the draft alone. *)
Theorem toggle_remove_frame (x : Settlement) (s : State) :
  (∀ item, ∃ s', perform (Toggle item) x s = Some s'
                 ∧ newTodoTitle s' = newTodoTitle s
                 ∧ editingTodo s' = editingTodo s)
  ∧ (∀ target, ∃ s', perform (Remove target) x s = Some s'
                     ∧ newTodoTitle s' = newTodoTitle s
                     ∧ editingTodo s' = editingTodo s)
  ∧ (∀ op s', perform op x s = Some s' →
       newTodoTitle s' ≠ newTodoTitle s ∨ editingTodo s' ≠ editingTodo s →
       op = Submit ∨ (∃ todo, op = StartEdit todo) ∨ op = CancelEdit
       ∨ (∃ value, op = Change value) ∧ editingTodo s' = editingTodo s).
Proof.
  split; [|split].
  - intros item. open_op. eexists. split; [reflexivity|].
    by destruct (put_try x).
  - intros target. open_op. eexists. split; [reflexivity|].
    by destruct (deleteTodo_try x).
  - intros op s' Hrun Hchanged.
    destruct op; eauto 6; [exfalso; revert Hrun; open_op ..|].
    + destruct (fetchTodos_try x) as [data|m]; simpl;
        [destruct (as_Todos data); simpl|]; intros [= <-]; simpl in *;
        by destruct Hchanged.
    + destruct (put_try x); intros [= <-]; simpl in *; by destruct Hchanged.
    + destruct (deleteTodo_try x); intros [= <-]; simpl in *; by destruct Hchanged.
    + injection Hrun as <-. do 3 right. eauto.
Qed.

Lemma toggle_remove_frame_witness :
  (∃ s', perform (Toggle milk) (reply_empty 502) (onChange "buy tea" shown) = Some s'
         ∧ newTodoTitle s' = "buy tea"
         ∧ editingTodo s' = None)
  ∧ (Submit = Submit ∨ (∃ todo, Submit = StartEdit todo) ∨ Submit = CancelEdit
     ∨ (∃ value, Submit = Change value) ∧ None = @None Todo).
Proof.
  split.
  - apply (proj1 (toggle_remove_frame (reply_empty 502) (onChange "buy tea" shown))).
  - apply (proj2 (proj2 (toggle_remove_frame
                           (reply 201 (json_of_Todo (mkTodo "3" "buy tea" false)))
                           (onChange "buy tea" shown)))
             Submit
             (mkState [milk; eggs; mkTodo "3" "buy tea" false] "" None false None)).
    + reflexivity.
    + left. by vm_compute.
Defined.

(** C3, as stated, fails for the operations that never read the body of a
    successful response: a DELETE answered 204 with no body, and a PUT
    answered 200 with text that is not JSON, both change the collection and
    leave [error] empty. *)
Lemma unread_body_counterexample :
  ok (mkResponse 204 (NotJson "Unexpected end of JSON input")) = true
  ∧ perform (Remove "1") (reply_empty 204) shown
    = Some (mkState [eggs] "" None false None)
  ∧ perform (Toggle milk)
      (Resolved (mkResponse 200 (NotJson "Unexpected token O in JSON at position 0")))
      shown
    = Some (mkState [mkTodo "1" "buy milk" true; eggs] "" None false None)
  ∧ [eggs] ≠ todos shown.
Proof. by vm_compute. Qed.

(** C3, amended: for every operation that calls the server, when the call
    is rejected or answered with a status that is not a success, and for
    loading and creating also when a success carries a body that is not
    JSON, the collection is left as it was and [error] holds a message that
    is not empty.  For every operation and every settlement, a result in
    which [error] is set has the collection it started with. *)
Theorem failure_keeps_collection (op : Operation) (x : Settlement) (s : State) :
  (remote op = true → failing op s x = true →
   ∃ s' m, perform op x s = Some s'
           ∧ todos s' = todos s
           ∧ error s' = Some m ∧ m ≠ "")
  ∧ (∀ s', perform op x s = Some s' → error s' ≠ None → todos s' = todos s).
Proof.
  split.
  - intros Hremote Hfail.
    assert (Hfetch : reads_body op s = true →
                     ∃ m, fetchTodos_try x = Throw m).
    { intros Hreads. destruct x as [m|r]; [by eexists|]. simpl in Hfail.
      rewrite Hreads in Hfail. simpl in Hfail.
      destruct (ok r) eqn:Hok; simpl in Hfail.
      - destruct (text r) as [e|j] eqn:Ht; [|done].
        exists e. by apply fetchTodos_try_not_json.
      - rewrite (fetchTodos_try_not_ok r Hok). apply throw_error_of_throws. }
    assert (Hput : reads_body op s = false → ∃ m, put_try x = Throw m).
    { intros Hreads. destruct x as [m|r]; [by eexists|]. simpl in Hfail.
      rewrite Hreads, andb_false_l, orb_false_r in Hfail.
      apply negb_true_iff in Hfail.
      rewrite (put_try_not_ok r Hfail). apply throw_error_of_throws. }
    assert (Hdel : reads_body op s = false → ∃ m, deleteTodo_try x = Throw m).
    { intros Hreads. destruct x as [m|r]; [by eexists|]. simpl in Hfail.
      rewrite Hreads, andb_false_l, orb_false_r in Hfail.
      apply negb_true_iff in Hfail.
      rewrite (deleteTodo_try_not_ok r Hfail). apply throw_error_of_throws. }
    destruct op; try discriminate Hremote; open_op.
    + destruct Hfetch as [m ->]; [done|]. simpl.
      reported.
    + destruct (editingTodo s) as [editing|] eqn:Hmode; simpl;
        destruct (bool_decide (trim (newTodoTitle s) = "")); simpl;
        try reported.
      * destruct Hput as [m ->]; [by simpl; rewrite Hmode|]. reported.
      * unfold addTodo_try. fold (fetchTodos_try x).
        destruct Hfetch as [m ->]; [by simpl; rewrite Hmode|]. reported.
    + destruct Hput as [m ->]; [done|]. reported.
    + destruct Hdel as [m ->]; [done|]. reported.
  - intros s'. destruct op; open_op.
    + destruct (fetchTodos_try x) as [data|m]; simpl;
        [destruct (as_Todos data); simpl|]; intros [= <-]; simpl; done.
    + destruct (editingTodo s) as [editing|]; simpl;
        case_bool_decide; simpl; try (by intros [= <-]).
      * destruct (put_try x); intros [= <-]; simpl; done.
      * destruct (addTodo_try x) as [data|m]; simpl;
          [destruct (as_Todo data); simpl|]; intros [= <-]; simpl; done.
    + destruct (put_try x); intros [= <-]; simpl; done.
    + destruct (deleteTodo_try x); intros [= <-]; simpl; done.
    + by intros [= <-].
    + by intros [= <-].
    + by intros [= <-].
Qed.

Lemma failure_keeps_collection_witness :
  (∃ s' m, perform (Remove "1") (reply 404 (JObj [("message", JStr "no such todo")]))
             shown = Some s'
           ∧ todos s' = [milk; eggs]
           ∧ error s' = Some m ∧ m ≠ "")
  ∧ todos update_refused = [milk; eggs].
Proof.
  split.
  - apply (proj1 (failure_keeps_collection (Remove "1")
                    (reply 404 (JObj [("message", JStr "no such todo")])) shown));
      reflexivity.
  - apply (proj2 (failure_keeps_collection Submit
                    (reply 500 (JObj [("message", JStr "db down")]))
                    (startEditing milk shown)) update_refused).
    + reflexivity.
    + discriminate.
Defined.

(** C4, as stated, fails when the [message] is the empty string: the error
    surfaced is then the status-coded one, not the prefix followed by the
    message. *)
Lemma empty_message_counterexample :
  own_property "message" [("message", JStr "")] = Some (JStr "")
  ∧ perform Submit (reply 500 (JObj [("message", JStr "")])) (startEditing milk shown)
    = Some (mkState [milk; eggs] "buy milk" (Some milk) false
              (Some "Failed to update todo: HTTP error! status: 500"))
  ∧ Some "Failed to update todo: HTTP error! status: 500"
    ≠ Some ("Failed to update todo: " +:+ "").
Proof. by vm_compute. Qed.

(** C4, amended: when an operation's call is answered with a status that is
    not a success and a body that is a JSON object, a [message] property
    holding a string that is not empty is surfaced after the operation's
    prefix (a 500 with [{message: "db down"}] on the update path gives
    "Failed to update todo: db down"); when the property is absent, or is
    the empty string, the surfaced error is the prefix followed by
    "HTTP error! status: " and the status code. *)
Theorem error_body_message (op : Operation) (s : State) (r : Response)
    (props : list (string * json)) :
  is_Some (issued (handler op) s) →
  ok r = false →
  text r = Json (JObj props) →
  (∀ m, own_property "message" props = Some (JStr m) → m ≠ "" →
        ∃ s', perform op (Resolved r) s = Some s'
              ∧ error s' = Some (failure_prefix op s +:+ m))
  ∧ (own_property "message" props = None
     ∨ own_property "message" props = Some (JStr "") →
     ∃ s', perform op (Resolved r) s = Some s'
           ∧ error s'
             = Some (failure_prefix op s +:+ "HTTP error! status: "
                     +:+ pretty (status r))).
Proof.
  intros Hcall Hok Htext.
  assert (Hthrown : ∀ thrown,
    (∀ A, @throw_error_of A r = Throw thrown) →
    ∃ s', perform op (Resolved r) s = Some s'
          ∧ error s' = Some (failure_prefix op s +:+ thrown)).
  { intros thrown Hthrow. revert Hcall. destruct op; open_op.
    - intros _. rewrite (fetchTodos_try_not_ok r Hok), Hthrow. by eexists.
    - destruct (editingTodo s) as [editing|]; simpl;
        destruct (bool_decide (trim (newTodoTitle s) = "")); simpl;
        try (by intros [? [=]]); intros _.
      + rewrite (put_try_not_ok r Hok), Hthrow. by eexists.
      + rewrite (addTodo_try_not_ok r Hok), Hthrow. by eexists.
    - intros _. rewrite (put_try_not_ok r Hok), Hthrow. by eexists.
    - intros _. rewrite (deleteTodo_try_not_ok r Hok), Hthrow. by eexists.
    - by intros [? [=]].
    - by intros [? [=]].
    - by intros [? [=]]. }
  split.
  - intros m Hm Hne. apply Hthrown. intros A.
    by apply (throw_error_of_message r props).
  - intros Hm. apply (Hthrown (http_error r)). intros A.
    by apply (throw_error_of_fallback r props).
Qed.

Lemma error_body_message_witness :
  (∃ s', perform Submit (reply 500 (JObj [("message", JStr "db down")]))
           (startEditing milk shown) = Some s'
         ∧ error s' = Some "Failed to update todo: db down")
  ∧ (∃ s', perform (Remove "7") (reply 404 (JObj [("status", JNum 404)])) shown
           = Some s'
           ∧ error s' = Some "Failed to delete todo: HTTP error! status: 404").
Proof.
  split.
  - apply (proj1 (error_body_message Submit (startEditing milk shown)
                    (mkResponse 500 (Json (JObj [("message", JStr "db down")])))
                    [("message", JStr "db down")]
                    ltac:(by eexists) eq_refl eq_refl) "db down").
    + reflexivity.
    + discriminate.
  - apply (proj2 (error_body_message (Remove "7") shown
                    (mkResponse 404 (Json (JObj [("status", JNum 404)])))
                    [("status", JNum 404)]
                    ltac:(by eexists) eq_refl eq_refl)).
    left. reflexivity.
Defined.

(** * Further properties of the handlers *)

(** ** What a failing settlement does to each [try] block *)

Lemma failing_reads_throws (op : Operation) (s : State) (x : Settlement) :
  failing op s x = true →
  reads_body op s = true → ∃ m, fetchTodos_try x = Throw m.
Proof.
  intros Hfail Hreads. destruct x as [m|r]; [by eexists|]. simpl in Hfail.
  rewrite Hreads in Hfail. simpl in Hfail.
  destruct (ok r) eqn:Hok; simpl in Hfail.
  - destruct (text r) as [e|j] eqn:Ht; [|done].
    exists e. by apply fetchTodos_try_not_json.
  - rewrite (fetchTodos_try_not_ok r Hok). apply throw_error_of_throws.
Qed.

Lemma failing_status (op : Operation) (s : State) (r : Response) :
  failing op s (Resolved r) = true →
  reads_body op s = false → ok r = false.
Proof.
  intros Hfail Hreads. simpl in Hfail.
  rewrite Hreads, andb_false_l, orb_false_r in Hfail.
  by apply negb_true_iff in Hfail.
Qed.

Lemma failing_put_throws (op : Operation) (s : State) (x : Settlement) :
  failing op s x = true →
  reads_body op s = false → ∃ m, put_try x = Throw m.
Proof.
  intros Hfail Hreads. destruct x as [m|r]; [by eexists|].
  rewrite (put_try_not_ok r (failing_status op s r Hfail Hreads)).
  apply throw_error_of_throws.
Qed.

Lemma failing_delete_throws (op : Operation) (s : State) (x : Settlement) :
  failing op s x = true →
  reads_body op s = false → ∃ m, deleteTodo_try x = Throw m.
Proof.
  intros Hfail Hreads. destruct x as [m|r]; [by eexists|].
  rewrite (deleteTodo_try_not_ok r (failing_status op s r Hfail Hreads)).
  apply throw_error_of_throws.
Qed.

(** ** Submitting *)

(** X1: a successful update leaves Editing mode: the item under edit is
    cleared, the draft is emptied, [error] is [null], and every position of
    the collection that held the edited id holds the item with the trimmed
    draft as title, the others what they held. *)
Theorem update_success (s : State) (editing : Todo) (r : Response) :
  editingTodo s = Some editing →
  trim (newTodoTitle s) ≠ "" →
  ok r = true →
  ∃ s', perform Submit (Resolved r) s = Some s'
        ∧ editingTodo s' = None
        ∧ newTodoTitle s' = ""
        ∧ error s' = None
        ∧ loading s' = loading s
        ∧ (∀ i t, todos s !! i = Some t → id t = id editing →
             todos s' !! i
             = Some (mkTodo (id editing) (trim (newTodoTitle s)) (completed editing)))
        ∧ (∀ i t, todos s !! i = Some t → id t ≠ id editing →
             todos s' !! i = Some t).
Proof.
  intros Hmode Hdraft Hok. open_op.
  rewrite Hmode, (bool_decide_eq_false_2 _ Hdraft). simpl.
  rewrite (put_try_ok r Hok).
  eexists. split; [reflexivity|]. simpl. repeat split.
  - intros i t. apply replaceById_hit.
  - intros i t. apply replaceById_miss.
Qed.

Lemma update_success_witness :
  ∃ s', perform Submit (reply 200 (json_of_Todo (mkTodo "1" "buy oat milk" false)))
          (onChange " buy oat milk " (startEditing milk shown)) = Some s'
        ∧ editingTodo s' = None
        ∧ newTodoTitle s' = ""
        ∧ error s' = None
        ∧ loading s' = false
        ∧ (∀ i t, [milk; eggs] !! i = Some t → id t = "1" →
             todos s' !! i
             = Some (mkTodo "1" (trim " buy oat milk ") false))
        ∧ (∀ i t, [milk; eggs] !! i = Some t → id t ≠ "1" →
             todos s' !! i = Some t).
Proof.
  apply (update_success (onChange " buy oat milk " (startEditing milk shown)) milk).
  - reflexivity.
  - by vm_compute.
  - reflexivity.
Defined.

(** X2: a submit that fails, in either mode and whether it fails the local
    check or at the server, keeps the draft and the mode, so the user can
    correct and submit again. *)
Theorem failed_submit_keeps_draft (s : State) (x : Settlement) :
  trim (newTodoTitle s) = "" ∨ failing Submit s x = true →
  ∃ s' m, perform Submit x s = Some s'
          ∧ newTodoTitle s' = newTodoTitle s
          ∧ editingTodo s' = editingTodo s
          ∧ error s' = Some m.
Proof.
  intros Hfail. open_op.
  destruct (editingTodo s) as [editing|] eqn:Hmode; simpl;
    destruct (bool_decide (trim (newTodoTitle s) = "")) eqn:Hblank; simpl;
    try (by do 2 eexists);
    (destruct Hfail as [Hb|Hfail]; [by apply bool_decide_eq_false_1 in Hblank|]).
  - destruct (failing_put_throws Submit s x Hfail) as [m ->];
      [by simpl; rewrite Hmode|]. by do 2 eexists.
  - unfold addTodo_try. fold (fetchTodos_try x).
    destruct (failing_reads_throws Submit s x Hfail) as [m ->];
      [by simpl; rewrite Hmode|]. by do 2 eexists.
Qed.

Lemma failed_submit_keeps_draft_witness :
  ∃ s' m, perform Submit (reply 500 (JObj [("message", JStr "db down")]))
            (onChange "buy tea" shown) = Some s'
          ∧ newTodoTitle s' = "buy tea"
          ∧ editingTodo s' = None
          ∧ error s' = Some m.
Proof.
  apply (failed_submit_keeps_draft (onChange "buy tea" shown)).
  right. reflexivity.
Defined.

(** X3: in Editing mode a draft that trims to nothing is refused locally: no
    request is issued, [error] holds the update validation message, and the
    collection, the draft and the item under edit stay as they were. *)
Theorem update_blank (s : State) (editing : Todo) :
  editingTodo s = Some editing →
  trim (newTodoTitle s) = "" →
  ∃ s', handler Submit s = (s', None)
        ∧ (∀ x, perform Submit x s = Some s')
        ∧ error s' = Some "Can't update with empty title or no todo selected."
        ∧ todos s' = todos s
        ∧ newTodoTitle s' = newTodoTitle s
        ∧ editingTodo s' = Some editing.
Proof.
  intros Hmode Hblank. open_op. rewrite Hmode, Hblank. simpl.
  eexists. split; [reflexivity|]. done.
Qed.

Lemma update_blank_witness :
  ∃ s', handler Submit (onChange "  " (startEditing milk shown)) = (s', None)
        ∧ (∀ x, perform Submit x (onChange "  " (startEditing milk shown)) = Some s')
        ∧ error s' = Some "Can't update with empty title or no todo selected."
        ∧ todos s' = [milk; eggs]
        ∧ newTodoTitle s' = "  "
        ∧ editingTodo s' = Some milk.
Proof.
  apply (update_blank (onChange "  " (startEditing milk shown)) milk); reflexivity.
Defined.

(** X4: what a submit sends depends on the mode alone.  In Adding mode it is
    a POST to the collection URL whose body is [{title}] with the draft as
    typed, surrounding white space included; in Editing mode it goes to the
    URL of the item under edit and reaches the wire as PUT.  A request is
    issued exactly when the draft does not trim to nothing. *)
Theorem submit_request (s : State) :
  (is_Some (issued (handler Submit) s) ↔ trim (newTodoTitle s) ≠ "")
  ∧ ∀ q, issued (handler Submit) s = Some q →
      match editingTodo s with
      | None =>
          issued_method q = "POST" ∧ url q = API_BASE_URL
          ∧ body (init q) = Some (JObj [("title", JStr (newTodoTitle s))])
      | Some editing =>
          issued_method q = "PUT"
          ∧ url q = API_BASE_URL +:+ "/" +:+ id editing
      end.
Proof.
  unfold issued. simpl. unfold onSubmit, updateTodo, addTodo.
  destruct (editingTodo s) as [editing|];
    case_bool_decide as Hblank; simpl; split;
    try (split; [by intros [? [=]] | done]);
    try (split; [done | by eauto]);
    try (by intros q [=]);
    by intros q [= <-].
Qed.

Lemma submit_request_witness :
  issued_method
    (mkRequest API_BASE_URL
       (mkInit "POST" json_headers (Some (JObj [("title", JStr " buy tea ")]))))
  = "POST"
  ∧ url (mkRequest API_BASE_URL
           (mkInit "POST" json_headers (Some (JObj [("title", JStr " buy tea ")]))))
    = API_BASE_URL
  ∧ body (init (mkRequest API_BASE_URL
                  (mkInit "POST" json_headers
                     (Some (JObj [("title", JStr " buy tea ")])))))
    = Some (JObj [("title", JStr " buy tea ")]).
Proof.
  apply (proj2 (submit_request (onChange " buy tea " shown))).
  reflexivity.
Defined.

(** ** Settling *)

(** X5: the second test in [deleteTodo], [response.status !== 204] under
    [!response.ok], never decides anything: a 204 is an [ok] status, so
    [deleteTodo] accepts and refuses exactly the settlements the PUT handlers
    do, with the same message. *)
Theorem deleteTodo_try_is_put_try (x : Settlement) :
  deleteTodo_try x = put_try x.
Proof.
  destruct x as [m|r]; [reflexivity|].
  unfold deleteTodo_try, put_try. simpl.
  destruct (ok r) eqn:Hok; simpl; [reflexivity|].
  by rewrite bool_decide_eq_false_2 by by apply not_ok_not_204.
Qed.

(** X6: while the load is in flight [loading] is [true] and [error] is
    [null]; however the call settles, on whatever the state has become by
    then, [loading] ends [false], and the draft and the item under edit are
    not touched. *)
Theorem fetchTodos_loading (s now : State) (x : Settlement) :
  ∃ p, fetchTodos s = (setError None (setLoading true s), Some p)
       ∧ loading (fetchTodos s).1 = true
       ∧ error (fetchTodos s).1 = None
       ∧ ∀ s', resume p x now = Some s' →
           loading s' = false
           ∧ newTodoTitle s' = newTodoTitle now
           ∧ editingTodo s' = editingTodo now.
Proof.
  eexists. split; [reflexivity|]. simpl. do 2 (split; [reflexivity|]).
  intros s'. destruct (fetchTodos_try x) as [data|m]; simpl;
    [destruct (as_Todos data); simpl|]; intros [= <-]; done.
Qed.

Lemma fetchTodos_loading_witness :
  loading (mkState [] "" None false (Some "Failed to load todos: Failed to fetch"))
  = false
  ∧ newTodoTitle (mkState [] "" None false (Some "Failed to load todos: Failed to fetch"))
    = newTodoTitle (fetchTodos initial).1
  ∧ editingTodo (mkState [] "" None false (Some "Failed to load todos: Failed to fetch"))
    = editingTodo (fetchTodos initial).1.
Proof.
  destruct (fetchTodos_loading initial (fetchTodos initial).1
              (Rejected "Failed to fetch")) as (p & Hp & _ & _ & Hsettled).
  injection Hp as <-.
  apply Hsettled. reflexivity.
Defined.

(** X7: what is surfaced when the error body gives no usable message.  For
    every operation that calls the server and a status that is not a
    success: a body that is not JSON surfaces the parser's message, and the
    body [null] the message of the failed property read, in both cases
    without the status code; a rejected call surfaces the rejection's
    message. *)
Theorem error_without_body (op : Operation) (s : State) :
  is_Some (issued (handler op) s) →
  (∀ r e, ok r = false → text r = NotJson e →
     ∃ s', perform op (Resolved r) s = Some s'
           ∧ error s' = Some (failure_prefix op s +:+ e))
  ∧ (∀ r, ok r = false → text r = Json JNull →
     ∃ s', perform op (Resolved r) s = Some s'
           ∧ error s' = Some (failure_prefix op s +:+ null_read))
  ∧ (∀ e, ∃ s', perform op (Rejected e) s = Some s'
                ∧ error s' = Some (failure_prefix op s +:+ e)).
Proof.
  intros Hcall.
  assert (Hthrown : ∀ x thrown,
    fetchTodos_try x = Throw thrown → put_try x = Throw thrown →
    deleteTodo_try x = Throw thrown →
    ∃ s', perform op x s = Some s'
          ∧ error s' = Some (failure_prefix op s +:+ thrown)).
  { intros x thrown Hf Hp Hd. revert Hcall. destruct op; open_op;
      try (by intros [? [=]]).
    - intros _. rewrite Hf. by eexists.
    - destruct (editingTodo s) as [editing|]; simpl;
        destruct (bool_decide (trim (newTodoTitle s) = "")); simpl;
        try (by intros [? [=]]); intros _.
      + rewrite Hp. by eexists.
      + unfold addTodo_try. fold (fetchTodos_try x). rewrite Hf. by eexists.
    - intros _. rewrite Hp. by eexists.
    - intros _. rewrite Hd. by eexists. }
  split; [|split].
  - intros r e Hok Ht.
    assert (He : ∀ A, @throw_error_of A r = Throw e).
    { intros A. unfold throw_error_of, response_json. by rewrite Ht. }
    apply Hthrown.
    + by rewrite (fetchTodos_try_not_ok r Hok).
    + by rewrite (put_try_not_ok r Hok).
    + by rewrite (deleteTodo_try_not_ok r Hok).
  - intros r Hok Ht.
    assert (He : ∀ A, @throw_error_of A r = Throw null_read).
    { intros A. unfold throw_error_of, response_json. by rewrite Ht. }
    apply Hthrown.
    + by rewrite (fetchTodos_try_not_ok r Hok).
    + by rewrite (put_try_not_ok r Hok).
    + by rewrite (deleteTodo_try_not_ok r Hok).
  - intros e. by apply Hthrown.
Qed.

Lemma error_without_body_witness :
  ∃ s', perform (Remove "1") (reply_empty 500) shown = Some s'
        ∧ error s' = Some "Failed to delete todo: Unexpected end of JSON input".
Proof.
  apply (proj1 (error_without_body (Remove "1") shown ltac:(by eexists))
           (mkResponse 500 (NotJson "Unexpected end of JSON input"))
           "Unexpected end of JSON input"); reflexivity.
Defined.

(** ** Calls that overlap

    A handler writes the collection from the [todos] of the render it was
    created in, not from the collection as it is when its call settles. *)

(** X8: two creates submitted one after the other before either settles,
    both successful: the first to settle appends its item, the second then
    replaces the collection by the starting one with its own item appended,
    and the item of the first is no longer in the collection unless it was
    there before. *)
Theorem overlapping_creates (s : State) (r1 r2 : Response) (j1 j2 : json)
    (t1 t2 : Todo) :
  editingTodo s = None →
  trim (newTodoTitle s) ≠ "" →
  ok r1 = true → text r1 = Json j1 → as_Todo j1 = Some t1 →
  ok r2 = true → text r2 = Json j2 → as_Todo j2 = Some t2 →
  ∃ s1 p1 s2 p2 s3 s4,
    handler Submit s = (s1, Some p1)
    ∧ handler Submit s1 = (s2, Some p2)
    ∧ resume p1 (Resolved r1) s2 = Some s3
    ∧ todos s3 = todos s ++ [t1]
    ∧ resume p2 (Resolved r2) s3 = Some s4
    ∧ todos s4 = todos s ++ [t2]
    ∧ (t1 ∈ todos s4 → t1 ∈ todos s ∨ t1 = t2).
Proof.
  intros Hmode Hdraft Hok1 Ht1 Hj1 Hok2 Ht2 Hj2.
  simpl. unfold onSubmit. rewrite Hmode. unfold addTodo.
  rewrite (bool_decide_eq_false_2 _ Hdraft).
  do 2 eexists. exists (setError None (setError None s)).
  do 3 eexists. split; [reflexivity|].
  change (editingTodo (setError None s)) with (editingTodo s).
  change (newTodoTitle (setError None s)) with (newTodoTitle s).
  rewrite Hmode, (bool_decide_eq_false_2 _ Hdraft).
  split; [reflexivity|]. simpl.
  unfold addTodo_try, response_json. simpl.
  rewrite Hok1, Ht1, Hok2, Ht2. simpl. rewrite Hj1, Hj2. simpl.
  split; [reflexivity|]. split; [reflexivity|].
  split; [reflexivity|]. split; [reflexivity|]. simpl.
  intros [H | H%list_elem_of_singleton]%elem_of_app; auto.
Qed.

Lemma overlapping_creates_witness :
  ∃ s1 p1 s2 p2 s3 s4,
    handler Submit (onChange "buy tea" shown) = (s1, Some p1)
    ∧ handler Submit s1 = (s2, Some p2)
    ∧ resume p1 (reply 201 (json_of_Todo (mkTodo "3" "buy tea" false))) s2 = Some s3
    ∧ todos s3 = [milk; eggs] ++ [mkTodo "3" "buy tea" false]
    ∧ resume p2 (reply 201 (json_of_Todo (mkTodo "4" "buy tea" false))) s3 = Some s4
    ∧ todos s4 = [milk; eggs] ++ [mkTodo "4" "buy tea" false]
    ∧ (mkTodo "3" "buy tea" false ∈ todos s4 →
       mkTodo "3" "buy tea" false ∈ [milk; eggs]
       ∨ mkTodo "3" "buy tea" false = mkTodo "4" "buy tea" false).
Proof.
  apply (overlapping_creates (onChange "buy tea" shown) _ _
           (json_of_Todo (mkTodo "3" "buy tea" false))
           (json_of_Todo (mkTodo "4" "buy tea" false))).
  - reflexivity.
  - by vm_compute.
  - reflexivity.
  - reflexivity.
  - reflexivity.
  - reflexivity.
  - reflexivity.
  - reflexivity.
Defined.

(** X9: when a call does not fail, the collection installed at settlement
    does not depend on the state at that moment: whatever other operations
    did to the collection while the call was in flight is overwritten. *)
Theorem success_overwrites (op : Operation) (s now1 now2 s1 s2 : State)
    (p : Pending) (x : Settlement) :
  (handler op s).2 = Some p →
  failing op s x = false →
  resume p x now1 = Some s1 →
  resume p x now2 = Some s2 →
  todos s1 = todos s2.
Proof.
  intros Hp Hfail. revert Hp.
  assert (Hput : reads_body op s = false → put_try x = Normal ()).
  { intros Hreads. destruct x as [m|r]; [done|]. simpl in Hfail.
    rewrite Hreads, andb_false_l, orb_false_r in Hfail.
    apply negb_false_iff in Hfail. by apply put_try_ok. }
  destruct op; simpl; try (by intros [=]).
  - intros [= <-]. simpl.
    destruct (fetchTodos_try x) as [data|m] eqn:Htry; simpl.
    + destruct (as_Todos data); simpl; [|done]. by intros [= <-] [= <-].
    + exfalso. destruct x as [e|r]; [done|]. simpl in Hfail.
      apply orb_false_iff in Hfail as [Hok%negb_false_iff Hjson].
      unfold fetchTodos_try, response_json in Htry. simpl in Htry.
      rewrite Hok in Htry. simpl in Htry.
      by destruct (text r).
  - unfold onSubmit, updateTodo, addTodo.
    destruct (editingTodo s) as [editing|] eqn:Hmode; simpl;
      destruct (bool_decide (trim (newTodoTitle s) = "")); simpl;
      try (by intros [=]); intros [= <-]; simpl.
    + rewrite Hput by by simpl; rewrite Hmode. by intros [= <-] [= <-].
    + destruct (addTodo_try x) as [data|m] eqn:Htry; simpl.
      * destruct (as_Todo data); simpl; [|done]. by intros [= <-] [= <-].
      * exfalso. destruct x as [e|r]; [done|]. simpl in Hfail.
        rewrite Hmode in Hfail. simpl in Hfail.
        apply orb_false_iff in Hfail as [Hok%negb_false_iff Hjson].
        unfold addTodo_try, response_json in Htry. simpl in Htry.
        rewrite Hok in Htry. simpl in Htry.
        by destruct (text r).
  - intros [= <-]. simpl. rewrite Hput by done. by intros [= <-] [= <-].
  - intros [= <-]. simpl. rewrite deleteTodo_try_is_put_try, Hput by done.
    by intros [= <-] [= <-].
Qed.

Lemma success_overwrites_witness :
  todos (mkState [milk] "" None false None)
  = todos (mkState [milk] "buy tea" (Some eggs) false None).
Proof.
  eapply (success_overwrites (Remove "2") shown
            (mkState [milk; eggs; mkTodo "3" "buy tea" false] "" None false None)
            (mkState [] "buy tea" (Some eggs) false None)
            _ _ _ (reply_empty 204)).
  - reflexivity.
  - reflexivity.
  - reflexivity.
  - reflexivity.
Defined.

(** X10: when a call fails, what resumes writes [error] alone (and, for the
    load, [loading]): on whatever the state has become by then, the
    collection, the draft and the item under edit are the current ones, and
    [error] holds a message that is not empty. *)
Theorem failure_writes_error_only (op : Operation) (s now : State)
    (p : Pending) (x : Settlement) :
  (handler op s).2 = Some p →
  failing op s x = true →
  ∃ s' m, resume p x now = Some s'
          ∧ todos s' = todos now
          ∧ newTodoTitle s' = newTodoTitle now
          ∧ editingTodo s' = editingTodo now
          ∧ loading s' = match op with FetchAll => false | _ => loading now end
          ∧ error s' = Some m ∧ m ≠ "".
Proof.
  intros Hp Hfail. revert Hp.
  destruct op; simpl; try (by intros [=]).
  - intros [= <-]. simpl.
    destruct (failing_reads_throws _ _ _ Hfail) as [m ->]; [done|]. simpl.
    do 2 eexists. split; [reflexivity|]. simpl. by repeat split.
  - unfold onSubmit, updateTodo, addTodo.
    destruct (editingTodo s) as [editing|] eqn:Hmode; simpl;
      destruct (bool_decide (trim (newTodoTitle s) = "")); simpl;
      try (by intros [=]); intros [= <-]; simpl.
    + destruct (failing_put_throws _ _ _ Hfail) as [m ->];
        [by simpl; rewrite Hmode|].
      do 2 eexists. split; [reflexivity|]. simpl. by repeat split.
    + unfold addTodo_try. fold (fetchTodos_try x).
      destruct (failing_reads_throws _ _ _ Hfail) as [m ->];
        [by simpl; rewrite Hmode|].
      do 2 eexists. split; [reflexivity|]. simpl. by repeat split.
  - intros [= <-]. simpl.
    destruct (failing_put_throws _ _ _ Hfail) as [m ->]; [done|].
    do 2 eexists. split; [reflexivity|]. simpl. by repeat split.
  - intros [= <-]. simpl.
    destruct (failing_delete_throws _ _ _ Hfail) as [m ->]; [done|].
    do 2 eexists. split; [reflexivity|]. simpl. by repeat split.
Qed.

Lemma failure_writes_error_only_witness :
  match (handler (Toggle eggs) shown).2 with
  | Some p =>
      ∃ s' m,
        resume p (reply 503 (JObj []))
          (mkState [milk] "buy tea" (Some milk) false None) = Some s'
        ∧ todos s' = [milk]
        ∧ newTodoTitle s' = "buy tea"
        ∧ editingTodo s' = Some milk
        ∧ loading s' = false
        ∧ error s' = Some m ∧ m ≠ ""
  | None => False
  end.
Proof.
  destruct (handler (Toggle eggs) shown).2 as [p|] eqn:Hp; [|discriminate Hp].
  apply (failure_writes_error_only (Toggle eggs) shown
           (mkState [milk] "buy tea" (Some milk) false None)
           p (reply 503 (JObj [])) Hp eq_refl).
Defined.

(** ** Ids that are not there, and doing things twice *)

Lemma replaceById_absent (target : string) (u : Todo) (l : list Todo) :
  (∀ t, t ∈ l → id t ≠ target) → replaceById target u l = l.
Proof.
  unfold replaceById. induction l as [|t l IH]; [done|]. intros Hl. simpl.
  rewrite bool_decide_eq_false_2 by (apply Hl, list_elem_of_here).
  f_equal. apply IH. intros t' Ht'. by apply Hl, list_elem_of_further.
Qed.

Lemma removeById_absent (target : string) (l : list Todo) :
  (∀ t, t ∈ l → id t ≠ target) → removeById target l = l.
Proof.
  unfold removeById. induction l as [|t l IH]; [done|]. intros Hl.
  rewrite filter_cons_True by (apply Hl, list_elem_of_here).
  f_equal. apply IH. intros t' Ht'. by apply Hl, list_elem_of_further.
Qed.

(** Replacing by an id twice in a row is replacing by the second item, when
    the first replacement keeps the id. *)
Lemma replaceById_twice (target : string) (u v : Todo) (l : list Todo) :
  id u = target →
  replaceById target v (replaceById target u l) = replaceById target v l.
Proof.
  intros Hu. unfold replaceById. rewrite <- list_fmap_compose.
  apply list_fmap_ext. intros i t _. simpl.
  destruct (bool_decide (id t = target)) eqn:Ht.
  - by rewrite (bool_decide_eq_true_2 _ Hu).
  - by rewrite Ht.
Qed.

(** Replacing the elements that carry an id by an item they all equal
    changes nothing. *)
Lemma replaceById_same (u : Todo) (l : list Todo) :
  (∀ t, t ∈ l → id t = id u → t = u) → replaceById (id u) u l = l.
Proof.
  unfold replaceById. induction l as [|t l IH]; [done|]. intros Hl. simpl.
  f_equal.
  - case_bool_decide as Hid; [|done]. symmetry. by apply Hl; [apply list_elem_of_here|].
  - apply IH. intros t' Ht'. by apply Hl, list_elem_of_further.
Qed.

(** X11: an id no element carries.  A successful toggle of an item whose id
    is not in the collection, and a successful remove of such an id, leave
    the collection as it is; a successful update of an item that is no
    longer in the collection leaves it as it is too, while the mode returns
    to Adding and the draft is emptied. *)
Theorem absent_id_no_change (s : State) (r : Response) :
  ok r = true →
  (∀ item, (∀ t, t ∈ todos s → id t ≠ id item) →
     ∃ s', perform (Toggle item) (Resolved r) s = Some s' ∧ todos s' = todos s)
  ∧ (∀ target, (∀ t, t ∈ todos s → id t ≠ target) →
     ∃ s', perform (Remove target) (Resolved r) s = Some s' ∧ todos s' = todos s)
  ∧ (∀ editing, editingTodo s = Some editing → trim (newTodoTitle s) ≠ "" →
     (∀ t, t ∈ todos s → id t ≠ id editing) →
     ∃ s', perform Submit (Resolved r) s = Some s'
           ∧ todos s' = todos s ∧ editingTodo s' = None ∧ newTodoTitle s' = "").
Proof.
  intros Hok. split; [|split].
  - intros item Habsent. open_op. rewrite (put_try_ok r Hok).
    eexists. split; [reflexivity|]. simpl. by apply replaceById_absent.
  - intros target Habsent. open_op. rewrite (deleteTodo_try_ok r Hok).
    eexists. split; [reflexivity|]. simpl. by apply removeById_absent.
  - intros editing Hmode Hdraft Habsent. open_op.
    rewrite Hmode, (bool_decide_eq_false_2 _ Hdraft). simpl.
    rewrite (put_try_ok r Hok).
    eexists. split; [reflexivity|]. simpl. split; [|done].
    by apply replaceById_absent.
Qed.

(** The item "buy milk" is under edit and is then removed: the update that
    follows has nothing to replace. *)
Lemma absent_id_no_change_witness :
  perform (Remove "1") (reply_empty 204) (onChange "buy oat milk" (startEditing milk shown))
  = Some (mkState [eggs] "buy oat milk" (Some milk) false None)
  ∧ ∃ s', perform Submit (reply 200 JNull)
            (mkState [eggs] "buy oat milk" (Some milk) false None) = Some s'
          ∧ todos s' = [eggs] ∧ editingTodo s' = None ∧ newTodoTitle s' = "".
Proof.
  split; [reflexivity|].
  apply (proj2 (proj2 (absent_id_no_change
                         (mkState [eggs] "buy oat milk" (Some milk) false None)
                         (mkResponse 200 (Json JNull)) eq_refl)) milk).
  - reflexivity.
  - by vm_compute.
  - intros t ->%list_elem_of_singleton. discriminate.
Defined.

(** X12: doing it twice.  When every element carrying [X]'s id is [X]
    (as when ids are unique), toggling [X] and then toggling the item as it
    is then shown gives back the collection one started with; removing an
    id a second time changes nothing more. *)
Theorem twice (s : State) (r1 r2 : Response) :
  ok r1 = true → ok r2 = true →
  (∀ X, (∀ t, t ∈ todos s → id t = id X → t = X) →
     ∃ s1 s2, perform (Toggle X) (Resolved r1) s = Some s1
              ∧ perform (Toggle (toggled X)) (Resolved r2) s1 = Some s2
              ∧ todos s2 = todos s)
  ∧ (∀ target,
     ∃ s1 s2, perform (Remove target) (Resolved r1) s = Some s1
              ∧ perform (Remove target) (Resolved r2) s1 = Some s2
              ∧ todos s2 = todos s1).
Proof.
  intros Hok1 Hok2. split.
  - intros X HX. open_op. rewrite (put_try_ok r1 Hok1), (put_try_ok r2 Hok2).
    do 2 eexists. split; [reflexivity|]. split; [reflexivity|]. simpl.
    rewrite replaceById_twice by done.
    destruct X as [i t c]. unfold toggled. simpl. rewrite negb_involutive.
    by apply (replaceById_same (mkTodo i t c)).
  - intros target. open_op.
    rewrite (deleteTodo_try_ok r1 Hok1), (deleteTodo_try_ok r2 Hok2).
    do 2 eexists. split; [reflexivity|]. split; [reflexivity|]. simpl.
    apply removeById_absent. intros t Ht. by apply removeById_elem in Ht as [_ ?].
Qed.

Lemma twice_witness :
  ∃ s1 s2, perform (Toggle milk) (reply 200 JNull) shown = Some s1
           ∧ perform (Toggle (toggled milk)) (reply 200 JNull) s1 = Some s2
           ∧ todos s2 = [milk; eggs].
Proof.
  apply (proj1 (twice shown (mkResponse 200 (Json JNull))
                  (mkResponse 200 (Json JNull)) eq_refl eq_refl) milk).
  intros t Ht Hid. apply list_elem_of_In in Ht. simpl in Ht.
  destruct Ht as [<- | [<- | []]]; [done | discriminate Hid].
Defined.

(** ** What the page shows *)

(** X13: the notes below the form.  While [loading] is set neither the
    "No todos yet!" note nor the list is shown; the note is shown only for
    an empty collection with no error alert; the list, when shown, is the
    whole collection and is not empty; and at least one of the loading
    note, the empty note, the list and the error alert is always shown.
    The "Cancel Edit" button and the label "Update Todo" appear exactly in
    Editing mode. *)
Theorem view_notes (s : State) :
  (loadingNote (render s) = true →
     emptyNote (render s) = false ∧ rows (render s) = None)
  ∧ (emptyNote (render s) = true →
     rows (render s) = None ∧ errorAlert (render s) = None ∧ todos s = [])
  ∧ (∀ l, rows (render s) = Some l → l = todos s ∧ l ≠ [] ∧ loading s = false)
  ∧ (loadingNote (render s) = true ∨ emptyNote (render s) = true
     ∨ is_Some (rows (render s)) ∨ is_Some (errorAlert (render s)))
  ∧ (cancelButton (render s) = true ↔ is_Some (editingTodo s))
  ∧ (submitLabel (render s) = "Update Todo" ↔ is_Some (editingTodo s)).
Proof.
  unfold render. simpl.
  destruct (loading s), (todos s) as [|t l], (error s) as [m|],
    (editingTodo s) as [e|]; simpl;
    try (destruct (bool_decide (m = "")) eqn:Hm; simpl);
    repeat split; try done; try (by intros [=]); try (by intros l' [= <-]);
    try (by intros [? [=]]); eauto.
  all: try (by intros; eexists).
  all: try (rewrite <- not_eq_None_Some; tauto).
  all: by simplify_eq.
Qed.

Lemma view_notes_witness :
  rows (render initial) = None
  ∧ emptyNote (render initial) = false
  ∧ (cancelButton (render (startEditing milk shown)) = true).
Proof.
  split; [|split].
  - apply (proj1 (view_notes initial)). reflexivity.
  - apply (proj1 (view_notes initial)). reflexivity.
  - apply (proj1 (proj2 (proj2 (proj2 (proj2 (view_notes (startEditing milk shown))))))).
    by eexists.
Defined.

(** X14: the first load, from the initial state.  If it fails, the page
    shows the error alert and neither the loading note, the "No todos yet!"
    note nor a list.  If it succeeds with the Todos [l], the loading note
    and the alert are gone, and the page shows the list [l], or the
    "No todos yet!" note when [l] is empty. *)
Theorem first_load_view (x : Settlement) :
  (failing FetchAll initial x = true →
   ∃ s' m, perform FetchAll x initial = Some s'
           ∧ errorAlert (render s') = Some m
           ∧ loadingNote (render s') = false
           ∧ emptyNote (render s') = false
           ∧ rows (render s') = None)
  ∧ (∀ r items l,
       x = Resolved r → ok r = true → text r = Json (JArr items) →
       mapM as_Todo items = Some l →
       ∃ s', perform FetchAll x initial = Some s'
             ∧ errorAlert (render s') = None
             ∧ loadingNote (render s') = false
             ∧ emptyNote (render s') = bool_decide (l = [])
             ∧ rows (render s') = (if bool_decide (l = []) then None else Some l)).
Proof.
  split.
  - intros Hfail. open_op.
    destruct (failing_reads_throws _ _ _ Hfail) as [m ->]; [done|]. simpl.
    do 2 eexists. split; [reflexivity|]. unfold render. simpl. done.
  - intros r items l -> Hok Ht Hl. open_op.
    unfold fetchTodos_try, response_json. simpl. rewrite Hok, Ht. simpl.
    rewrite Hl. simpl.
    eexists. split; [reflexivity|]. unfold render. simpl.
    by destruct l.
Qed.

Lemma first_load_view_witness :
  (∃ s' m, perform FetchAll (Rejected "Failed to fetch") initial = Some s'
           ∧ errorAlert (render s') = Some m
           ∧ loadingNote (render s') = false
           ∧ emptyNote (render s') = false
           ∧ rows (render s') = None)
  ∧ (∃ s', perform FetchAll (reply 200 (JArr [])) initial = Some s'
           ∧ errorAlert (render s') = None
           ∧ loadingNote (render s') = false
           ∧ emptyNote (render s') = true
           ∧ rows (render s') = None).
Proof.
  split.
  - apply (proj1 (first_load_view (Rejected "Failed to fetch"))). reflexivity.
  - apply (proj2 (first_load_view (reply 200 (JArr [])))
             (mkResponse 200 (Json (JArr []))) [] []); reflexivity.
Defined.

(** ** Sessions *)

Lemma perform_error_not_empty (op : Operation) (x : Settlement) (s s' : State) :
  error s ≠ Some "" → perform op x s = Some s' → error s' ≠ Some "".
Proof.
  intros Hs. destruct op; open_op.
  - destruct (fetchTodos_try x) as [data|m]; simpl;
      [destruct (as_Todos data); simpl|]; intros [= <-]; simpl; done.
  - destruct (editingTodo s) as [editing|]; simpl;
      destruct (bool_decide (trim (newTodoTitle s) = "")); simpl;
      try (by intros [= <-]).
    + destruct (put_try x); intros [= <-]; simpl; done.
    + destruct (addTodo_try x) as [data|m]; simpl;
        [destruct (as_Todo data); simpl|]; intros [= <-]; simpl; done.
  - destruct (put_try x); intros [= <-]; simpl; done.
  - destruct (deleteTodo_try x); intros [= <-]; simpl; done.
  - by intros [= <-].
  - by intros [= <-].
  - by intros [= <-].
Qed.

(** X15: no handler ever writes the empty string to [error].  So in every
    state a session reaches from the initial one, the alert shows exactly
    the error held, and the "No todos yet!" note is shown exactly when the
    collection is empty, nothing is loading and no error is held. *)
Theorem session_alert (steps : list (Operation * Settlement)) (s' : State) :
  session steps initial = Some s' →
  error s' ≠ Some ""
  ∧ errorAlert (render s') = error s'
  ∧ (emptyNote (render s') = true
     ↔ todos s' = [] ∧ loading s' = false ∧ error s' = None).
Proof.
  assert (Hinv : ∀ s, error s ≠ Some "" → session steps s = Some s' →
                      error s' ≠ Some "").
  { induction steps as [|[op x] steps IH]; simpl.
    - by intros s Hs [= <-].
    - intros s Hs. destruct (perform op x s) as [s1|] eqn:Hrun; simpl; [|done].
      apply IH. by eapply perform_error_not_empty. }
  intros Hrun. specialize (Hinv initial ltac:(done) Hrun).
  split; [done|]. unfold render. simpl.
  destruct (error s') as [m|]; simpl.
  - rewrite bool_decide_eq_false_2 by congruence. simpl.
    split; [done|]. rewrite andb_false_r. split; [done|]. by intros (_ & _ & [=]).
  - split; [done|]. rewrite andb_true_r, andb_true_iff, negb_true_iff.
    rewrite Nat.eqb_eq, length_zero_iff_nil. tauto.
Qed.

Lemma session_alert_witness :
  error update_refused ≠ Some ""
  ∧ errorAlert (render update_refused) = error update_refused
  ∧ (emptyNote (render update_refused) = true
     ↔ todos update_refused = [] ∧ loading update_refused = false
       ∧ error update_refused = None).
Proof.
  apply (session_alert
           [(FetchAll, reply 200 (JArr [json_of_Todo milk; json_of_Todo eggs]));
            (StartEdit milk, reply 200 JNull);
            (Submit, reply 500 (JObj [("message", JStr "db down")]))]).
  reflexivity.
Defined.

(** X16: choosing an item to edit replaces whatever had been typed by the
    item's title, and "Cancel Edit" then leaves the draft empty: text typed
    before editing is not brought back.  The collection and [loading] are
    as before, and [error] is [null]. *)
Theorem edit_cancel_discards_draft (s : State) (typed : string) (todo : Todo)
    (x1 x2 x3 : Settlement) :
  session [(Change typed, x1); (StartEdit todo, x2)] s
  = Some (mkState (todos s) (title todo) (Some todo) (loading s) None)
  ∧ session [(Change typed, x1); (StartEdit todo, x2); (CancelEdit, x3)] s
    = Some (mkState (todos s) "" None (loading s) None).
Proof. split; reflexivity. Qed.
